(** * The Speed Index audit (src/audits/performance/speed-index-metric.js)

    A shallow embedding of [SpeedIndexMetric] and of the fragment of
    JavaScript it runs on: values, Numbers, property reads, promises and
    the [Math] builtins the audit calls.

    Numbers.  A finite Number is represented by the rational it denotes, next
    to [NaN] and the two infinities.  The product [100 * p] is the exact
    product of rationals: its rounding to the nearest double and the sign of
    zero are not modelled. *)

From Stdlib Require Import Reals List String Bool ZArith QArith Qround.
From Stdlib Require Import Lia Psatz.
Import ListNotations.

Set Implicit Arguments.
Set Warnings "-register-all".

Local Open Scope string_scope.

(** ** JavaScript Numbers *)

Inductive number : Type :=
| NaN
| Infinity (negative : bool)
| Finite (q : Q).

Module Num.

Definition of_Z (z : Z) : number := Finite (inject_Z z).

Definition is_negative (q : Q) : bool := negb (Qle_bool 0 q).

(** [a < b] on Numbers; false as soon as one side is [NaN]. *)
Definition ltb (a b : number) : bool :=
  match a, b with
  | NaN, _ | _, NaN => false
  | Infinity sa, Infinity sb => sa && negb sb
  | Infinity sa, Finite _ => sa
  | Finite _, Infinity sb => negb sb
  | Finite x, Finite y => negb (Qle_bool y x)
  end.

(** The [*] operator.  The product of two finite Numbers is their exact
    product; binary64 arithmetic goes on to round it to the nearest double,
    which can land a product on a half-integer that the exact product
    misses.  What is proved of the score is stated for every product
    ([score_of_product]) or does not depend on where such a product
    falls. *)
Definition mul (a b : number) : number :=
  match a, b with
  | NaN, _ | _, NaN => NaN
  | Infinity sa, Infinity sb => Infinity (xorb sa sb)
  | Infinity s, Finite q | Finite q, Infinity s =>
      if Qeq_bool q 0 then NaN else Infinity (xorb s (is_negative q))
  | Finite x, Finite y => Finite (x * y)
  end.

End Num.

(** ** The Math builtins used by the audit *)

Module Math.

(** [Math.min(a, b)]: [NaN] if either argument is, else the smaller. *)
Definition min (a b : number) : number :=
  match a, b with
  | NaN, _ | _, NaN => NaN
  | _, _ => if Num.ltb b a then b else a
  end.

(** [Math.max(a, b)]: [NaN] if either argument is, else the larger. *)
Definition max (a b : number) : number :=
  match a, b with
  | NaN, _ | _, NaN => NaN
  | _, _ => if Num.ltb a b then b else a
  end.

(** [Math.round(x)]: the closest integer, ties going towards +Infinity,
    that is [floor (x + 1/2)]; [NaN] and the infinities are returned
    unchanged. *)
Definition round (x : number) : number :=
  match x with
  | Finite q => Num.of_Z (Qfloor (q + (1 # 2)))
  | _ => x
  end.

End Math.

(** ** JavaScript values, errors and completions *)

Inductive JsValue : Type :=
| VUndefined
| VNull
| VBoolean (b : bool)
| VNumber (n : number)
| VString (s : string)
| VArray (elements : list JsValue)
| VObject (properties : list (string * JsValue)).

(** [new Error(message)], of which only the [message] property is ever
    read.  It is what the audit throws itself; a collaborator may throw, or
    reject with, any value at all. *)
Definition mkError (message : string) : JsValue :=
  VObject [("message", VString message)].

(** Outcome of evaluating a synchronous expression or call: a value, or a
    throw of any value. *)
Inductive completion (A : Type) : Type :=
| Normal (a : A)
| Throw (err : JsValue).

Arguments Normal {A} a.
Arguments Throw {A} err.

(** State of a promise once the job queue has run: fulfilled with a value,
    rejected with a reason, or never settled. *)
Inductive promise (A : Type) : Type :=
| Fulfilled (a : A)
| Rejected (reason : JsValue)
| Pending.

Arguments Fulfilled {A} a.
Arguments Rejected {A} reason.
Arguments Pending {A}.

(** What [artifacts.traceContents] may hold: a plain value or a promise of
    one. *)
Inductive resolvable : Type :=
| Plain (v : JsValue)
| Thenable (p : promise JsValue).

Module Promise.

(** [Promise.resolve(x)] adopts a promise and wraps a plain value. *)
Definition resolve (r : resolvable) : promise JsValue :=
  match r with
  | Plain v => Fulfilled v
  | Thenable p => p
  end.

(** [promise.then(onFulfilled)].  The callback's own outcome (a value, a
    promise, or a throw turned into a rejection) is given as a promise. *)
Definition then_ {A B : Type} (p : promise A) (onFulfilled : A -> promise B)
  : promise B :=
  match p with
  | Fulfilled a => onFulfilled a
  | Rejected reason => Rejected reason
  | Pending => Pending
  end.

(** [promise.catch(onRejected)]. *)
Definition catch {A : Type} (p : promise A)
    (onRejected : JsValue -> promise A)
  : promise A :=
  match p with
  | Fulfilled a => Fulfilled a
  | Rejected reason => onRejected reason
  | Pending => Pending
  end.

(** A callback that returns normally fulfils, one that throws rejects. *)
Definition of_completion {A : Type} (c : completion A) : promise A :=
  match c with
  | Normal a => Fulfilled a
  | Throw err => Rejected err
  end.

End Promise.

Declare Scope promise_scope.
Delimit Scope promise_scope with promise.
Notation "p '.then' f" := (Promise.then_ p f)
  (at level 50, left associativity) : promise_scope.
Notation "p '.catch' f" := (Promise.catch p f)
  (at level 50, left associativity) : promise_scope.

(** ** Operations on values *)

(** ToBoolean, as applied by [!trace]. *)
Definition ToBoolean (v : JsValue) : bool :=
  match v with
  | VUndefined | VNull => false
  | VBoolean b => b
  | VNumber NaN => false
  | VNumber (Infinity _) => true
  | VNumber (Finite q) => negb (Qeq_bool q 0)
  | VString s => negb (String.eqb s "")
  | VArray _ | VObject _ => true
  end.

Definition Array_isArray (v : JsValue) : bool :=
  match v with
  | VArray _ => true
  | _ => false
  end.

Fixpoint lookup (key : string) (properties : list (string * JsValue))
  : option JsValue :=
  match properties with
  | [] => None
  | (k, v) :: rest => if String.eqb k key then Some v else lookup key rest
  end.

(** Message of the TypeError raised by a property read on [undefined] or
    [null] (the text V8 gave it when the audit was written). *)
Definition cannot_read (key : string) (base : string) : JsValue :=
  mkError ("Cannot read property '" ++ key ++ "' of " ++ base).

(** [v.key] for a [key] that is no builtin member of strings, arrays or
    wrapper objects (such as [speedIndex] and [message]): own properties of
    an object, [undefined] on the other values, a TypeError on [undefined]
    and [null]. *)
Definition Get (v : JsValue) (key : string) : completion JsValue :=
  match v with
  | VUndefined => Throw (cannot_read key "undefined")
  | VNull => Throw (cannot_read key "null")
  | VObject properties =>
      Normal (match lookup key properties with
              | Some x => x
              | None => VUndefined
              end)
  | _ => Normal VUndefined
  end.

(** ToNumber, as applied by [Math.round] to its argument.  Strings, arrays
    and objects are converted through their string form (ToPrimitive and
    the StringNumericLiteral grammar); that conversion is the parameter
    [via_string]. *)
Definition ToNumber (via_string : JsValue -> number) (v : JsValue) : number :=
  match v with
  | VUndefined => NaN
  | VNull => Finite 0
  | VBoolean b => Finite (if b then 1 else 0)
  | VNumber n => n
  | VString _ | VArray _ | VObject _ => via_string v
  end.

Definition bind {A B : Type} (c : completion A) (k : A -> completion B)
  : completion B :=
  match c with
  | Normal a => k a
  | Throw err => Throw err
  end.

Notation "x <- c ;; k" := (bind c (fun x => k))
  (at level 61, c at next level, right associativity).

(** ** What the audit requires *)

(** The object returned by [TracingProcessor.getLogNormalDistribution]: its
    one method takes whatever [results.speedIndex] holds, and returns a
    Number or throws. *)
Record Distribution : Type :=
  { computeComplementaryPercentile : JsValue -> completion number }.

(** The modules the audit calls and whose code is elsewhere: the [speedline]
    package, [TracingProcessor] (lib/traces/tracing-processor) and the
    string-to-Number conversion of the language. *)
Class Imports : Type :=
  { speedline : JsValue -> promise JsValue;
    getLogNormalDistribution : number -> number -> completion Distribution;
    StringToNumber : JsValue -> number }.

(** ** The Audit base class (src/audits/audit.js) *)

Module AuditResult.

Record t : Type :=
  { value : number;
    rawValue : option number;
    debugString : JsValue;
    optimalValue : string;
    name : string;
    category : string;
    description : string }.

End AuditResult.

Module Audit.

(** The static getters an audit overrides. *)
Class Statics : Type :=
  { category : string;
    name : string;
    description : string }.

(** Modelled from the spec: [Audit.generateAuditResult], whose file
    (src/audits/audit.js) is not part of the sources at hand.  Following
    the output contract, it hands the reporting layer the score, the
    optional raw value and debug string and the optimal value it is given,
    together with the static metadata of the audit class it is called on.
    A raw value that is [undefined] is [None]; the debug string is whatever
    value it is given, [undefined] included. *)
Definition generateAuditResult `{Statics} (value : number)
    (rawValue : option number) (debugString : JsValue)
    (optimalValue : string) : AuditResult.t :=
  {| AuditResult.value := value;
     AuditResult.rawValue := rawValue;
     AuditResult.debugString := debugString;
     AuditResult.optimalValue := optimalValue;
     AuditResult.name := name;
     AuditResult.category := category;
     AuditResult.description := description |}.

End Audit.

(** ** speed-index-metric.js *)

(** The object literals built inside [audit]: [{score, rawValue}] on
    success and [{score, debugString}] after a recovery.  A property that
    the literal does not have is [None], and reads as [undefined]. *)
Module Result.

Record t : Type :=
  { score : number;
    rawValue : option number;
    debugString : option JsValue }.

(** [result.debugString]: [undefined] when the literal has no such
    property. *)
Definition read_debugString (result : t) : JsValue :=
  match debugString result with
  | Some v => v
  | None => VUndefined
  end.

End Result.

Record Artifacts : Type := { traceContents : resolvable }.

Module SpeedIndexMetric.

Definition FAILURE_MESSAGE : string :=
  "Navigation and first paint timings not found.".

Definition SCORING_POINT_OF_DIMINISHING_RETURNS : number := Num.of_Z 1250.
Definition SCORING_MEDIAN : number := Num.of_Z 5500.

Definition category : string := "Performance".
Definition name : string := "speed-index-metric".
Definition description : string := "Speed Index".
Definition optimalValue : string := "1,000".
Definition requiredArtifacts : list string := ["traceContents"].

#[export] Instance statics : Audit.Statics :=
  {| Audit.category := category;
     Audit.name := name;
     Audit.description := description |}.

Section Audit.

Context `{I : Imports}.

(** First [then] callback: the guard on the trace, then speedline. *)
Definition on_trace (trace : JsValue) : promise JsValue :=
  if negb (ToBoolean trace) || negb (Array_isArray trace)
  then Rejected (mkError FAILURE_MESSAGE)
  else speedline trace.

(** The clamp and the rounding applied to [100 * p]. *)
Definition clamp_and_round (p : number) : number :=
  let score := Num.mul (Num.of_Z 100) p in
  let score := Math.min (Num.of_Z 100) score in
  let score := Math.max (Num.of_Z 0) score in
  Math.round score.

(** Second [then] callback: scoring. *)
Definition on_results (results : JsValue) : promise Result.t :=
  Promise.of_completion
    (distribution <- getLogNormalDistribution SCORING_MEDIAN
                       SCORING_POINT_OF_DIMINISHING_RETURNS ;;
     speedIndex <- Get results "speedIndex" ;;
     p <- computeComplementaryPercentile distribution speedIndex ;;
     rawIndex <- Get results "speedIndex" ;;
     Normal {| Result.score := clamp_and_round p;
               Result.rawValue :=
                 Some (Math.round (ToNumber StringToNumber rawIndex));
               Result.debugString := None |}).

(** The [catch] callback: recover from a failure of either stage.  The
    read of [err.message] is a property read like any other: it throws on
    [undefined] and [null], and the callback with it. *)
Definition on_error (err : JsValue) : promise Result.t :=
  Promise.of_completion
    (message <- Get err "message" ;;
     Normal {| Result.score := Num.of_Z (-1);
               Result.rawValue := None;
               Result.debugString := Some message |}).

(** Last [then] callback: hand the result to the base class. *)
Definition on_result (result : Result.t) : promise AuditResult.t :=
  Fulfilled (Audit.generateAuditResult
               (Result.score result)
               (Result.rawValue result)
               (Result.read_debugString result)
               optimalValue).

(** The promise chain before its [catch]: retrieval and scoring. *)
Definition attempt (artifacts : Artifacts) : promise Result.t :=
  (Promise.resolve (traceContents artifacts)
     .then on_trace .then on_results)%promise.

Definition audit (artifacts : Artifacts) : promise AuditResult.t :=
  (attempt artifacts .catch on_error .then on_result)%promise.

End Audit.

End SpeedIndexMetric.

(** ** The scoring rule as the specification words it *)

Module Spec.

(** [clamp(v, lo, hi)]. *)
Definition clamp (v lo hi : number) : number :=
  if Num.ltb v lo then lo
  else if Num.ltb hi v then hi
  else v.

(** [score = clamp(round(100 * p), 0, 100)]: round first, clamp second. *)
Definition score (p : number) : number :=
  clamp (Math.round (Num.mul (Num.of_Z 100) p)) (Num.of_Z 0) (Num.of_Z 100).

(** [rawValue = round(x)]. *)
Definition rawValue (x : number) : number := Math.round x.

End Spec.

(** ** A stand-in for the collaborators

    Used to run the audit on concrete inputs.  The scorer reads the
    percentile bands listed in the comment of [audit] as a step function and,
    like an arithmetic formula would, answers [NaN] on what is no finite
    Number. *)

Module StandIn.

Definition band (x : Q) : Q :=
  if Qle_bool x 0 then 1
  else if Qle_bool x 2240 then 9 # 10
  else if Qle_bool x 3430 then 3 # 4
  else if Qle_bool x 5500 then 1 # 2
  else if Qle_bool x 8820 then 1 # 4
  else if Qle_bool x 17400 then 1 # 20
  else 0.

Definition distribution : Distribution :=
  {| computeComplementaryPercentile := fun v =>
       match v with
       | VNumber (Finite x) => Normal (Finite (band x))
       | _ => Normal NaN
       end |}.

(** [speedline] settles as [outcome], whatever the trace. *)
Definition imports (outcome : promise JsValue) : Imports :=
  {| speedline := fun _ => outcome;
     getLogNormalDistribution := fun _ _ => Normal distribution;
     StringToNumber := fun _ => NaN |}.

(** A scorer that always answers [p]. *)
Definition constant (p : number) (outcome : promise JsValue) : Imports :=
  {| speedline := fun _ => outcome;
     getLogNormalDistribution := fun _ _ =>
       Normal {| computeComplementaryPercentile := fun _ => Normal p |};
     StringToNumber := fun _ => NaN |}.

Definition measurement (x : Q) : JsValue :=
  VObject [("speedIndex", VNumber (Finite x))].

(** [speedline] answers the measurement written in the first entry of the
    trace, and rejects a trace that has none. *)
Definition replay : Imports :=
  {| speedline := fun trace =>
       match trace with
       | VArray (VNumber (Finite x) :: _) => Fulfilled (measurement x)
       | _ => Rejected (mkError "no frames in trace")
       end;
     getLogNormalDistribution := fun _ _ => Normal distribution;
     StringToNumber := fun _ => NaN |}.

Definition recorded (x : Q) : Artifacts :=
  {| traceContents := Thenable (Fulfilled (VArray [VNumber (Finite x)])) |}.

Definition some_trace : Artifacts :=
  {| traceContents := Plain (VArray [VObject [("name", VString "paint")]]) |}.

End StandIn.

(** The clamped value of a finite product, before rounding. *)
Definition clamped (s : Q) : Q :=
  if Qle_bool 100 s then 100 else if Qle_bool s 0 then 0 else s.

(** What the scoring callback does with the product [100 * p] once it has
    it: the two clamps and the rounding. *)
Definition score_of_product (product : number) : number :=
  Math.round (Math.max (Num.of_Z 0) (Math.min (Num.of_Z 100) product)).

Import SpeedIndexMetric.

(** ** Runs of the audit *)

(** Where a failure caught by the audit was raised. *)
Inductive origin : Type :=
| TraceProvider   (* [artifacts.traceContents] is a rejected promise *)
| TraceGuard      (* the audit's own check of the trace *)
| Speedline       (* [speedline(trace)] rejects or throws *)
| PropertyRead    (* [results.speedIndex] on [undefined] or [null] *)
| Scorer.         (* [TracingProcessor] throws, building or applying the
                     distribution *)

Definition collaborator (o : origin) : bool :=
  match o with
  | TraceProvider | Speedline | Scorer => true
  | TraceGuard | PropertyRead => false
  end.

Section RunDefinitions.

Context `{I : Imports}.

Definition the_distribution : completion Distribution :=
  getLogNormalDistribution SCORING_MEDIAN
    SCORING_POINT_OF_DIMINISHING_RETURNS.

Definition passes_guard (trace : JsValue) : bool :=
  ToBoolean trace && Array_isArray trace.

(** The run reads [x] from [results.speedIndex] and the scorer answers
    [p] on it. *)
Definition measures (artifacts : Artifacts) (x : JsValue) (p : number)
  : Prop :=
  exists trace results distribution,
    Promise.resolve (traceContents artifacts) = Fulfilled trace /\
    passes_guard trace = true /\
    speedline trace = Fulfilled results /\
    the_distribution = Normal distribution /\
    Get results "speedIndex" = Normal x /\
    computeComplementaryPercentile distribution x = Normal p.

(** Retrieval or scoring fails with [err], raised at [o]. *)
Inductive fails (artifacts : Artifacts) : origin -> JsValue -> Prop :=
| fails_provider err :
    Promise.resolve (traceContents artifacts) = Rejected err ->
    fails artifacts TraceProvider err
| fails_guard trace :
    Promise.resolve (traceContents artifacts) = Fulfilled trace ->
    passes_guard trace = false ->
    fails artifacts TraceGuard (mkError FAILURE_MESSAGE)
| fails_speedline trace err :
    Promise.resolve (traceContents artifacts) = Fulfilled trace ->
    passes_guard trace = true ->
    speedline trace = Rejected err ->
    fails artifacts Speedline err
| fails_distribution trace results err :
    Promise.resolve (traceContents artifacts) = Fulfilled trace ->
    passes_guard trace = true ->
    speedline trace = Fulfilled results ->
    the_distribution = Throw err ->
    fails artifacts Scorer err
| fails_read trace results distribution err :
    Promise.resolve (traceContents artifacts) = Fulfilled trace ->
    passes_guard trace = true ->
    speedline trace = Fulfilled results ->
    the_distribution = Normal distribution ->
    Get results "speedIndex" = Throw err ->
    fails artifacts PropertyRead err
| fails_scorer trace results distribution x err :
    Promise.resolve (traceContents artifacts) = Fulfilled trace ->
    passes_guard trace = true ->
    speedline trace = Fulfilled results ->
    the_distribution = Normal distribution ->
    Get results "speedIndex" = Normal x ->
    computeComplementaryPercentile distribution x = Throw err ->
    fails artifacts Scorer err.

(** The two shapes of the object the audit returns: after a measurement,
    and after a recovery that read [message] from the reason it caught. *)
Definition scored (x : JsValue) (p : number) : AuditResult.t :=
  Audit.generateAuditResult (clamp_and_round p)
    (Some (Math.round (ToNumber StringToNumber x))) VUndefined optimalValue.

Definition failed (message : JsValue) : AuditResult.t :=
  Audit.generateAuditResult (Num.of_Z (-1)) None message optimalValue.

End RunDefinitions.

(** The invariant of the score result as the specification words it: an
    integer score in [0,100], or the score -1 together with a debug message
    that is not empty. *)
Definition worded_invariant (r : AuditResult.t) : Prop :=
  (exists n : Z, AuditResult.value r = Num.of_Z n /\ (0 <= n <= 100)%Z)
  \/ (AuditResult.value r = Num.of_Z (-1) /\
      exists msg : string,
        AuditResult.debugString r = VString msg /\ msg <> "").

(** ** The artifacts object

    The gather phase hands [audit] an object with one property per gathered
    artifact, listed here in the order they were set: a property set twice
    holds the later value.  Reading [artifacts.traceContents] on an object
    without that property gives [undefined]. *)

Definition Gathered : Type := list (string * resolvable).

Fixpoint gathered (key : string) (artifacts : Gathered) : option resolvable :=
  match artifacts with
  | [] => None
  | (k, r) :: rest =>
      match gathered key rest with
      | Some later => Some later
      | None => if String.eqb k key then Some r else None
      end
  end.

Definition read_artifacts (artifacts : Gathered) : Artifacts :=
  {| traceContents :=
       match gathered "traceContents" artifacts with
       | Some r => r
       | None => Plain VUndefined
       end |}.

(** A second stand-in for the collaborators: it agrees with [StandIn.replay]
    on arrays and on the calibration of the audit, and misbehaves
    everywhere else. *)
Definition is_calibration (median pdr : number) : bool :=
  match median, pdr with
  | Finite m, Finite d => Qeq_bool m 5500 && Qeq_bool d 1250
  | _, _ => false
  end.

Definition narrow_replay : Imports :=
  {| speedline := fun trace =>
       match trace with
       | VArray (VNumber (Finite x) :: _) =>
           Fulfilled (StandIn.measurement x)
       | VArray _ => Rejected (mkError "no frames in trace")
       | _ => Pending
       end;
     getLogNormalDistribution := fun median pdr =>
       if is_calibration median pdr then Normal StandIn.distribution
       else Throw (mkError "unknown calibration");
     StringToNumber := fun _ => NaN |}.

(** ** The distribution scorer, from the specification

    [TracingProcessor.getLogNormalDistribution] lives in
    lib/traces/tracing-processor.js, outside the sources at hand.  What
    follows is the scorer the specification describes, over the real
    numbers: a log-normal model with location [ln median] and a positive
    shape, whose complementary percentile is one minus the log-normal
    cumulative distribution function. *)

Module DistributionScorer.

Local Open Scope R_scope.

(** *** The standard normal distribution

    Its cumulative distribution function is the area under the bell curve
    [exp (- t^2 / 2)] to the left of [z], over the normalising constant
    [sqrt (2 * PI)].  The area is the limit of the integrals from [-n]. *)

(** The bell curve, without its normalising constant. *)
Definition bell (t : R) : R := exp (- (t * t / 2)).

Lemma bell_continuous : continuity bell.
Proof. unfold bell. reg. Qed.

Lemma bell_nonneg (t : R) : 0 <= bell t.
Proof. unfold bell. left. apply exp_pos. Qed.

Lemma bell_integrable (a b : R) : Riemann_integrable bell a b.
Proof.
  destruct (Rle_dec a b) as [L | N].
  - apply continuity_implies_RiemannInt; [exact L|].
    intros x _. apply bell_continuous.
  - apply RiemannInt_P1. apply continuity_implies_RiemannInt; [lra|].
    intros x _. apply bell_continuous.
Qed.

(** The area under the bell curve between [a] and [b] (signed: negative
    when [b < a]). *)
Definition area (a b : R) : R := RiemannInt (bell_integrable a b).

Lemma area_chasles (a b c : R) : area a b + area b c = area a c.
Proof. unfold area. apply RiemannInt_P26. Qed.

Lemma area_nonneg (a b : R) : a <= b -> 0 <= area a b.
Proof.
  intros L. unfold area.
  rewrite <- (Rmult_0_l (b - a)).
  rewrite <- (RiemannInt_P15 (RiemannInt_P14 a b 0)).
  apply RiemannInt_P19; [exact L|].
  intros x _. unfold fct_cte. apply bell_nonneg.
Qed.

Lemma exp_monotone (x y : R) : x <= y -> exp x <= exp y.
Proof.
  intros [L | ->]; [left; now apply exp_increasing | right; reflexivity].
Qed.

Lemma bell_le_exp (t : R) : bell t <= exp (1 / 2) * exp t.
Proof.
  unfold bell. rewrite <- exp_plus. apply exp_monotone.
  pose proof (Rle_0_sqr (t + 1)) as S. unfold Rsqr in S. lra.
Qed.

(** A function with a known primitive that lies above the bell curve; it
    bounds the area to the left of any point. *)
Definition cover (t : R) : R := exp (1 / 2) * exp t.

Lemma cover_derivable : derivable cover.
Proof. unfold cover. reg. Qed.

Lemma cover_derive (t : R) : derive cover cover_derivable t = cover t.
Proof.
  unfold derive. apply derive_pt_eq_0. unfold cover.
  apply derivable_pt_lim_scal. apply derivable_pt_lim_exp.
Qed.

Lemma cover_derive_continuous : continuity (derive cover cover_derivable).
Proof.
  intros t.
  apply continuity_pt_locally_ext with (f := cover) (a := 1).
  - lra.
  - intros x _. symmetry. apply cover_derive.
  - apply derivable_continuous. apply cover_derivable.
Qed.

Definition cover_C1 : C1_fun := mkC1 cover_derive_continuous.

Lemma area_le_cover (a b : R) : a <= b -> area a b <= cover b.
Proof.
  intros L. unfold area.
  apply Rle_trans with (RiemannInt (RiemannInt_P32 cover_C1 a b)).
  - apply RiemannInt_P19; [exact L|].
    intros x _. simpl. rewrite cover_derive. apply bell_le_exp.
  - rewrite (RiemannInt_P33 cover_C1 _ L). simpl.
    assert (0 < cover a) by (unfold cover; apply Rmult_lt_0_compat; apply exp_pos).
    lra.
Qed.

(** The area under the bell from [-n] to [z]. *)
Definition tail (z : R) (n : nat) : R := area (- INR n) z.

Lemma tail_growing (z : R) : Un_growing (tail z).
Proof.
  intros n. unfold tail.
  rewrite <- (area_chasles (- INR (S n)) (- INR n) z).
  assert (0 <= area (- INR (S n)) (- INR n)).
  { apply area_nonneg. rewrite S_INR. lra. }
  lra.
Qed.

Lemma area_swap (a b : R) : area a b = - area b a.
Proof. unfold area. apply RiemannInt_P8. Qed.

Lemma tail_bounded (z : R) : has_ub (tail z).
Proof.
  exists (cover z). intros y [n ->]. unfold tail.
  destruct (Rle_dec (- INR n) z) as [L | N].
  - now apply area_le_cover.
  - rewrite area_swap.
    assert (0 <= area z (- INR n)) by (apply area_nonneg; lra).
    assert (0 < cover z) by (unfold cover; apply Rmult_lt_0_compat; apply exp_pos).
    lra.
Qed.

(** The whole area to the left of [z]. *)
Definition total_area_upto (z : R) : R :=
  proj1_sig (growing_cv (tail z) (tail_growing z) (tail_bounded z)).

Lemma total_area_upto_limit (z : R) : Un_cv (tail z) (total_area_upto z).
Proof.
  unfold total_area_upto.
  apply (proj2_sig (growing_cv (tail z) (tail_growing z) (tail_bounded z))).
Qed.

Lemma total_area_difference (z1 z2 : R) :
  total_area_upto z2 - total_area_upto z1 = area z1 z2.
Proof.
  apply UL_sequence with (fun n => tail z2 n - tail z1 n).
  - apply CV_minus; apply total_area_upto_limit.
  - intros eps He. exists 0%nat. intros n _.
    unfold tail. rewrite <- (area_chasles (- INR n) z1 z2).
    unfold Rdist. replace (_ - _) with 0 by ring. rewrite Rabs_R0. exact He.
Qed.

Lemma total_area_nonneg (z : R) : 0 <= total_area_upto z.
Proof.
  destruct (INR_unbounded (- z)) as [n Hn].
  apply Rle_trans with (tail z n).
  - unfold tail. apply area_nonneg. lra.
  - apply growing_ineq; [apply tail_growing | apply total_area_upto_limit].
Qed.

(** The cumulative distribution function of the standard normal law. *)
Definition standard_normal_cdf (z : R) : R :=
  total_area_upto z / sqrt (2 * PI).

Lemma normaliser_pos : 0 < sqrt (2 * PI).
Proof. apply sqrt_lt_R0. pose proof PI_RGT_0. lra. Qed.

Lemma standard_normal_cdf_nonneg (z : R) : 0 <= standard_normal_cdf z.
Proof.
  unfold standard_normal_cdf. apply Rmult_le_pos.
  - apply total_area_nonneg.
  - left. apply Rinv_0_lt_compat. apply normaliser_pos.
Qed.

Lemma standard_normal_cdf_monotone (z1 z2 : R) :
  z1 <= z2 -> standard_normal_cdf z1 <= standard_normal_cdf z2.
Proof.
  intros L. unfold standard_normal_cdf.
  apply Rmult_le_compat_r.
  - left. apply Rinv_0_lt_compat. apply normaliser_pos.
  - pose proof (total_area_difference z1 z2) as D.
    pose proof (area_nonneg L). lra.
Qed.

(** *** The log-normal model *)

Record Model : Type := { location : R; shape : R }.

(** Modelled from the spec: [buildLogNormalModel(median,
    pointOfDiminishingReturns)], the construction behind
    [TracingProcessor.getLogNormalDistribution], which is not among the
    sources.  The location is such that the median of the distribution is
    [median] (median = e^location); the shape is such that the cumulative
    probability at the point of diminishing returns is a fixed reference
    fraction, through the inverse of the standard normal CDF.  The
    specification does not give that fraction: its standard normal quantile
    is the parameter [reference_quantile], negative because the point lies
    below the median. *)
Definition buildLogNormalModel (reference_quantile : R)
    (median pointOfDiminishingReturns : R) : Model :=
  {| location := ln median;
     shape := (ln pointOfDiminishingReturns - ln median)
              / reference_quantile |}.

(** The log-normal cumulative distribution function: no mass at or below 0,
    and the standard normal CDF of the standardised logarithm above it. *)
Definition cdf (model : Model) (x : R) : R :=
  if Rle_dec x 0 then 0
  else standard_normal_cdf ((ln x - location model) / shape model).

(** Modelled from the spec: [complementaryPercentile(model, x)], that is
    [computeComplementaryPercentile] of the distribution object, which is
    not among the sources: one minus the CDF of the model at [x]. *)
Definition complementaryPercentile (model : Model) (x : R) : R :=
  1 - cdf model x.

Lemma shape_positive (reference_quantile median pdr : R) :
  reference_quantile < 0 -> 0 < pdr < median ->
  0 < shape (buildLogNormalModel reference_quantile median pdr).
Proof.
  intros Q [P M]. cbn [buildLogNormalModel shape].
  assert (L : ln pdr < ln median) by (apply ln_increasing; assumption).
  replace ((ln pdr - ln median) / reference_quantile)
    with ((ln median - ln pdr) * / - reference_quantile).
  - apply Rmult_lt_0_compat; [lra|]. apply Rinv_0_lt_compat. lra.
  - field. lra.
Qed.

Lemma complementaryPercentile_antitone_for_shape (model : Model)
    (x1 x2 : R) :
  0 < shape model -> 0 <= x1 < x2 ->
  complementaryPercentile model x2 <= complementaryPercentile model x1.
Proof.
  intros S [X1 X12]. unfold complementaryPercentile, cdf.
  destruct (Rle_dec x2 0) as [? | _]; [lra|].
  destruct (Rle_dec x1 0) as [_ | N].
  - pose proof (standard_normal_cdf_nonneg
                  ((ln x2 - location model) / shape model)). lra.
  - assert (L : ln x1 < ln x2) by (apply ln_increasing; lra).
    assert (Z : (ln x1 - location model) / shape model
                <= (ln x2 - location model) / shape model).
    { apply Rmult_le_compat_r; [|lra].
      left. apply Rinv_0_lt_compat. exact S. }
    pose proof (standard_normal_cdf_monotone Z). lra.
Qed.

Lemma at_zero (model : Model) :
  cdf model 0 = 0 /\ complementaryPercentile model 0 = 1.
Proof.
  unfold complementaryPercentile, cdf.
  destruct (Rle_dec 0 0) as [_ | N]; [split; lra | exfalso; apply N; lra].
Qed.

End DistributionScorer.

(** * Properties *)

(** ** Rounding and clamping *)

Lemma of_Z_inj (a b : Z) : Num.of_Z a = Num.of_Z b -> a = b.
Proof. unfold Num.of_Z, inject_Z. intros E. now injection E. Qed.

Lemma round_half (z : Z) : Qfloor (inject_Z z + (1 # 2)) = z.
Proof.
  assert (L : (z <= Qfloor (inject_Z z + (1 # 2)))%Z).
  { rewrite <- (Qfloor_Z z) at 1. apply Qfloor_resp_le.
    generalize (inject_Z z). intros a. lra. }
  assert (U : (Qfloor (inject_Z z + (1 # 2)) < z + 1)%Z).
  { rewrite Zlt_Qlt. eapply Qle_lt_trans; [apply Qfloor_le|].
    rewrite inject_Z_plus. apply Qplus_lt_r. reflexivity. }
  lia.
Qed.

Lemma round_between (lo hi : Z) (c : Q) :
  inject_Z lo <= c -> c <= inject_Z hi ->
  (lo <= Qfloor (c + (1 # 2)) <= hi)%Z.
Proof.
  intros L U. split.
  - rewrite <- (round_half lo). apply Qfloor_resp_le.
    apply Qplus_le_l. exact L.
  - rewrite <- (round_half hi). apply Qfloor_resp_le.
    apply Qplus_le_l. exact U.
Qed.

Lemma ltb_finite (x y : Q) :
  Num.ltb (Finite x) (Finite y) = true <-> x < y.
Proof.
  simpl. rewrite negb_true_iff.
  destruct (Qle_bool y x) eqn:E.
  - apply Qle_bool_iff in E. split; [discriminate | lra].
  - split; [intros _ | reflexivity].
    apply Qnot_le_lt. intros C. apply Qle_bool_iff in C. congruence.
Qed.

Lemma ltb_finite_false (x y : Q) :
  Num.ltb (Finite x) (Finite y) = false <-> y <= x.
Proof.
  simpl. rewrite negb_false_iff. apply Qle_bool_iff.
Qed.

Lemma clamped_range (s : Q) : 0 <= clamped s <= 100.
Proof.
  unfold clamped.
  destruct (Qle_bool 100 s) eqn:A; [lra|].
  destruct (Qle_bool s 0) eqn:B; [lra|].
  assert (~ 100 <= s) by (rewrite <- Qle_bool_iff; congruence).
  assert (~ s <= 0) by (rewrite <- Qle_bool_iff; congruence).
  lra.
Qed.

Lemma clamp_and_round_finite (q : Q) :
  clamp_and_round (Finite q)
  = Num.of_Z (Qfloor (clamped (100 * q) + (1 # 2))).
Proof.
  unfold clamp_and_round, clamped, Math.min, Math.max, Math.round.
  change (Num.mul (Num.of_Z 100) (Finite q)) with (Finite (100 * q)).
  change (Num.of_Z 100) with (Finite 100).
  change (Num.of_Z 0) with (Finite 0).
  generalize (100 * q). intros s. cbn [Num.ltb].
  destruct (Qle_bool 100 s); cbn [negb].
  - reflexivity.
  - cbn [Num.ltb]. destruct (Qle_bool s 0); reflexivity.
Qed.

Lemma clamp_and_round_in_range (q : Q) :
  exists n : Z, clamp_and_round (Finite q) = Num.of_Z n /\ (0 <= n <= 100)%Z.
Proof.
  rewrite clamp_and_round_finite. eexists. split; [reflexivity|].
  destruct (clamped_range (100 * q)) as [L U].
  apply round_between; assumption.
Qed.

Lemma clamp_and_round_infinite (negative : bool) :
  clamp_and_round (Infinity negative)
  = Num.of_Z (if negative then 0 else 100).
Proof. destruct negative; reflexivity. Qed.

Lemma clamp_and_round_NaN : clamp_and_round NaN = NaN.
Proof. reflexivity. Qed.

(** A score computed on the success path is never the failure sentinel. *)
Lemma clamp_and_round_not_sentinel (p : number) :
  clamp_and_round p <> Num.of_Z (-1).
Proof.
  destruct p as [|negative|q].
  - discriminate.
  - rewrite clamp_and_round_infinite. intros E. apply of_Z_inj in E.
    destruct negative; discriminate.
  - destruct (clamp_and_round_in_range q) as (n & E & R).
    rewrite E. intros C. apply of_Z_inj in C. lia.
Qed.

(** Clamping then rounding, as the code does, is rounding then clamping. *)
Lemma clamp_and_round_spec (p : number) : clamp_and_round p = Spec.score p.
Proof.
  destruct p as [|negative|q].
  - reflexivity.
  - destruct negative; reflexivity.
  - rewrite clamp_and_round_finite.
    unfold Spec.score, Spec.clamp, Math.round, clamped.
    change (Num.mul (Num.of_Z 100) (Finite q)) with (Finite (100 * q)).
    generalize (100 * q). intros s.
    set (n := Qfloor (s + (1 # 2))).
    destruct (Qle_bool 100 s) eqn:A.
    + change (Qfloor (100 + (1 # 2))) with 100%Z.
      apply Qle_bool_iff in A.
      assert (L : (100 <= n)%Z).
      { unfold n. rewrite <- (round_half 100). apply Qfloor_resp_le.
        apply Qplus_le_l. exact A. }
      assert (F0 : Num.ltb (Num.of_Z n) (Num.of_Z 0) = false).
      { apply ltb_finite_false. rewrite <- Zle_Qle. lia. }
      rewrite F0.
      destruct (Num.ltb (Num.of_Z 100) (Num.of_Z n)) eqn:F1.
      * reflexivity.
      * apply ltb_finite_false in F1. rewrite <- Zle_Qle in F1.
        f_equal. lia.
    + assert (A' : s < 100).
      { apply Qnot_le_lt. rewrite <- Qle_bool_iff. congruence. }
      assert (U : (n <= 100)%Z).
      { unfold n. rewrite <- (round_half 100). apply Qfloor_resp_le.
        apply Qplus_le_l. apply Qlt_le_weak. exact A'. }
      assert (F1 : Num.ltb (Num.of_Z 100) (Num.of_Z n) = false).
      { apply ltb_finite_false. rewrite <- Zle_Qle. exact U. }
      destruct (Qle_bool s 0) eqn:B.
      * change (Qfloor (0 + (1 # 2))) with 0%Z.
        apply Qle_bool_iff in B.
        assert (L : (n <= 0)%Z).
        { unfold n. rewrite <- (round_half 0). apply Qfloor_resp_le.
          apply Qplus_le_l. exact B. }
        destruct (Num.ltb (Num.of_Z n) (Num.of_Z 0)) eqn:F0.
        -- reflexivity.
        -- apply ltb_finite_false in F0. rewrite <- Zle_Qle in F0.
           rewrite F1. f_equal. lia.
      * assert (B' : 0 < s).
        { apply Qnot_le_lt. rewrite <- Qle_bool_iff. congruence. }
        assert (L : (0 <= n)%Z).
        { unfold n. rewrite <- (round_half 0). apply Qfloor_resp_le.
          apply Qplus_le_l. apply Qlt_le_weak. exact B'. }
        assert (F0 : Num.ltb (Num.of_Z n) (Num.of_Z 0) = false).
        { apply ltb_finite_false. rewrite <- Zle_Qle. exact L. }
        rewrite F0, F1. reflexivity.
Qed.


(** ** Runs of the audit *)

Section Runs.

Context `{I : Imports}.

Lemma on_trace_guard (trace : JsValue) :
  on_trace trace
  = if passes_guard trace then speedline trace
    else Rejected (mkError FAILURE_MESSAGE).
Proof.
  unfold on_trace, passes_guard.
  destruct (ToBoolean trace), (Array_isArray trace); reflexivity.
Qed.

Lemma audit_measures (artifacts : Artifacts) (x : JsValue) (p : number) :
  measures artifacts x p -> audit artifacts = Fulfilled (scored x p).
Proof.
  intros (trace & results & distribution & R & G & S & D & X & P).
  unfold audit, attempt. rewrite R. cbn [Promise.then_].
  rewrite on_trace_guard, G, S. cbn [Promise.then_].
  unfold on_results. fold the_distribution.
  rewrite D. cbn [bind]. rewrite X. cbn [bind]. rewrite P. reflexivity.
Qed.

(** A failed run continues with the recovery callback on its reason. *)
Lemma audit_fails (artifacts : Artifacts) (o : origin) (err : JsValue) :
  fails artifacts o err ->
  audit artifacts = Promise.then_ (on_error err) on_result.
Proof.
  intros F. unfold audit, attempt.
  destruct F as [err R | trace R G | trace err R G S
                | trace results err R G S D
                | trace results distribution err R G S D X
                | trace results distribution x err R G S D X P];
    rewrite R; cbn [Promise.then_];
    try (rewrite on_trace_guard, G; cbn [Promise.then_]);
    try (rewrite S; cbn [Promise.then_]);
    try reflexivity;
    unfold on_results; fold the_distribution; rewrite D; cbn [bind].
  - reflexivity.
  - rewrite X. reflexivity.
  - rewrite X. cbn [bind]. rewrite P. reflexivity.
Qed.

(** The recovery succeeds when [message] can be read from the reason ... *)
Lemma audit_recovers (artifacts : Artifacts) (o : origin)
    (err message : JsValue) :
  fails artifacts o err ->
  Get err "message" = Normal message ->
  audit artifacts = Fulfilled (failed message).
Proof.
  intros F M. rewrite (audit_fails F). unfold on_error. rewrite M.
  reflexivity.
Qed.

(** ... and throws in its turn when it cannot. *)
Lemma audit_escapes (artifacts : Artifacts) (o : origin)
    (err thrown : JsValue) :
  fails artifacts o err ->
  Get err "message" = Throw thrown ->
  audit artifacts = Rejected thrown.
Proof.
  intros F M. rewrite (audit_fails F). unfold on_error. rewrite M.
  reflexivity.
Qed.



Lemma message_of_Error (message : string) :
  Get (mkError message) "message" = Normal (VString message).
Proof. reflexivity. Qed.

(** Every run is pending, a measured run, or a failed one. *)
Lemma run_cases (artifacts : Artifacts) :
  audit artifacts = Pending
  \/ (exists x p, measures artifacts x p)
  \/ (exists o err, fails artifacts o err).
Proof.
  destruct (Promise.resolve (traceContents artifacts))
    as [trace | err |] eqn:R.
  - destruct (passes_guard trace) eqn:G.
    + destruct (speedline trace) as [results | err |] eqn:S.
      * destruct the_distribution as [distribution | err] eqn:D.
        -- destruct (Get results "speedIndex") as [x | err] eqn:X.
           ++ destruct (computeComplementaryPercentile distribution x)
                as [p | err] eqn:P.
              ** right; left. exists x, p, trace, results, distribution.
                 auto 7.
              ** right; right. exists Scorer, err.
                 eapply fails_scorer; eauto.
           ++ right; right. exists PropertyRead, err.
              eapply fails_read; eauto.
        -- right; right. exists Scorer, err.
           eapply fails_distribution; eauto.
      * right; right. exists Speedline, err.
        eapply fails_speedline; eauto.
      * left. unfold audit, attempt. rewrite R. cbn [Promise.then_].
        rewrite on_trace_guard, G, S. reflexivity.
    + right; right. exists TraceGuard, (mkError FAILURE_MESSAGE).
      eapply fails_guard; eauto.
  - right; right. exists TraceProvider, err. now apply fails_provider.
  - left. unfold audit, attempt. rewrite R. reflexivity.
Qed.

(** The failures the audit raises itself are Errors with a message. *)
Lemma own_failure_described (artifacts : Artifacts) (o : origin)
    (err : JsValue) :
  fails artifacts o err -> collaborator o = false ->
  exists message : string, err = mkError message /\ message <> "".
Proof.
  intros F C.
  destruct F as [| | | | trace results distribution err R G S D X |];
    try discriminate C.
  - exists FAILURE_MESSAGE. split; [reflexivity | discriminate].
  - destruct results; try discriminate X; injection X as <-;
      eexists; (split; [reflexivity | discriminate]).
Qed.


(** A result, when there is one, is that of a measured run or that of a
    recovery. *)
Lemma audit_fulfilled_cases (artifacts : Artifacts) (r : AuditResult.t) :
  audit artifacts = Fulfilled r ->
  (exists (x : JsValue) (p : number),
      measures artifacts x p /\ r = scored x p)
  \/ (exists (o : origin) (err message : JsValue),
        fails artifacts o err /\
        Get err "message" = Normal message /\
        r = failed message).
Proof.
  intros E.
  destruct (run_cases artifacts) as [P | [(x & p & M) | (o & err & F)]].
  - congruence.
  - left. exists x, p. rewrite (audit_measures M) in E.
    injection E as <-. split; [exact M | reflexivity].
  - right. destruct (Get err "message") as [message | thrown] eqn:G.
    + rewrite (audit_recovers F G) in E. injection E as <-.
      exists o, err, message. auto.
    + rewrite (audit_escapes F G) in E. discriminate E.
Qed.

End Runs.

(** ** Error handling *)

Section ErrorHandling.

Context `{I : Imports}.


(** C3, as the code has it: when the trace is missing (falsy) or is not an
    array, the audit returns the failure result whose debug string is
    exactly "Navigation and first paint timings not found.". *)
Theorem missing_trace_not_found (artifacts : Artifacts) (trace : JsValue) :
  Promise.resolve (traceContents artifacts) = Fulfilled trace ->
  ToBoolean trace = false \/ Array_isArray trace = false ->
  exists r : AuditResult.t,
    audit artifacts = Fulfilled r /\
    AuditResult.value r = Num.of_Z (-1) /\
    AuditResult.rawValue r = None /\
    AuditResult.debugString r = VString FAILURE_MESSAGE.
Proof.
  intros R G.
  assert (F : fails artifacts TraceGuard (mkError FAILURE_MESSAGE)).
  { apply fails_guard with trace; [exact R|].
    unfold passes_guard. destruct G as [-> | ->]; [reflexivity|].
    apply andb_false_r. }
  exists (failed (VString FAILURE_MESSAGE)).
  split; [exact (audit_recovers F (message_of_Error _)) | repeat split].
Qed.

(** C10, as the code has it: a result that reports a recovered failure
    carries no measurement.  After a failure from whose reason [message]
    can be read, the returned result has score -1, no raw value, and that
    [message] as debug string: a string when the reason is an Error,
    [undefined] when the reason has no such property.  And no result of
    the audit pairs the score -1 with a raw value: a result with score -1
    comes from a recovery. *)
Theorem failure_carries_no_raw_value (artifacts : Artifacts) :
  (forall (o : origin) (err message : JsValue),
      fails artifacts o err ->
      Get err "message" = Normal message ->
      exists r : AuditResult.t,
        audit artifacts = Fulfilled r /\
        AuditResult.value r = Num.of_Z (-1) /\
        AuditResult.debugString r = message /\
        AuditResult.rawValue r = None) /\
  (forall (o : origin) (message : string),
      fails artifacts o (mkError message) ->
      exists r : AuditResult.t,
        audit artifacts = Fulfilled r /\
        AuditResult.value r = Num.of_Z (-1) /\
        AuditResult.debugString r = VString message /\
        AuditResult.rawValue r = None) /\
  (forall r : AuditResult.t,
      audit artifacts = Fulfilled r ->
      AuditResult.value r = Num.of_Z (-1) ->
      AuditResult.rawValue r = None /\
      exists (o : origin) (err : JsValue),
        fails artifacts o err /\
        Get err "message" = Normal (AuditResult.debugString r)).
Proof.
  split; [| split].
  - intros o err message F M. exists (failed message).
    split; [exact (audit_recovers F M) | repeat split].
  - intros o message F. exists (failed (VString message)).
    split; [exact (audit_recovers F (message_of_Error message))
           | repeat split].
  - intros r E V.
    destruct (run_cases artifacts) as [P | [(x & p & M) | (o & err & F)]].
    + congruence.
    + rewrite (audit_measures M) in E. injection E as <-.
      exfalso. exact (clamp_and_round_not_sentinel p V).
    + destruct (Get err "message") as [message | thrown] eqn:G.
      * rewrite (audit_recovers F G) in E. injection E as <-.
        split; [reflexivity|]. exists o, err. split; [exact F | exact G].
      * rewrite (audit_escapes F G) in E. discriminate E.
Qed.

End ErrorHandling.

(** ** Scoring *)

Section Scoring.

Context `{I : Imports}.

(** C2, as the code has it: every result the audit returns has one of two
    shapes.  On success there is no debug string, the score is an integer
    in [0,100] as soon as the scorer answered a Number other than NaN, and
    the raw value is a non-negative integer when the measurement is a
    non-negative real.  On failure the score is exactly -1 and the debug
    string is what the [message] property of the caught reason holds: a
    string that is not empty for the failures the audit raises itself
    (trace not found, read on an absent result), and whatever a
    collaborator put there otherwise. *)
Theorem audit_result_invariant (artifacts : Artifacts) (r : AuditResult.t) :
  audit artifacts = Fulfilled r ->
  (exists (x : JsValue) (p : number),
      measures artifacts x p /\
      AuditResult.debugString r = VUndefined /\
      (p <> NaN ->
       exists n : Z,
         AuditResult.value r = Num.of_Z n /\ (0 <= n <= 100)%Z) /\
      (forall q : Q,
          x = VNumber (Finite q) -> 0 <= q ->
          exists m : Z,
            AuditResult.rawValue r = Some (Num.of_Z m) /\ (0 <= m)%Z))
  \/
  (exists (o : origin) (err : JsValue),
      fails artifacts o err /\
      AuditResult.value r = Num.of_Z (-1) /\
      Get err "message" = Normal (AuditResult.debugString r) /\
      (collaborator o = false ->
       exists message : string,
         AuditResult.debugString r = VString message /\ message <> "")).
Proof.
  intros E.
  destruct (run_cases artifacts) as [P | [(x & p & M) | (o & err & F)]].
  - congruence.
  - left. exists x, p. rewrite (audit_measures M) in E. injection E as <-.
    split; [exact M | split; [reflexivity | split]].
    + intros N. cbn [scored Audit.generateAuditResult AuditResult.value].
      destruct p as [| negative | q].
      * contradiction.
      * rewrite clamp_and_round_infinite. eexists. split; [reflexivity|].
        destruct negative; lia.
      * apply clamp_and_round_in_range.
    + intros q -> Q0.
      cbn [scored Audit.generateAuditResult AuditResult.rawValue ToNumber
           Math.round].
      eexists. split; [reflexivity|].
      rewrite <- (round_half 0). apply Qfloor_resp_le.
      apply Qplus_le_l. exact Q0.
  - right. exists o, err.
    destruct (Get err "message") as [message | thrown] eqn:G.
    + rewrite (audit_recovers F G) in E. injection E as <-.
      split; [exact F | split; [reflexivity | split; [reflexivity|]]].
      intros C. destruct (own_failure_described F C) as (s0 & -> & N).
      exists s0. injection G as <-. split; [reflexivity | exact N].
    + rewrite (audit_escapes F G) in E. discriminate E.
Qed.

(** C4: for a valid measurement [x] on which the scorer answers [p], the
    result holds score = clamp(round(100 * p), 0, 100) and
    rawValue = round(x); the code clamps before it rounds, the
    specification rounds before it clamps, and the two agree on every [p]. *)
Theorem success_result_follows_spec (artifacts : Artifacts) (x : Q)
    (p : number) :
  measures artifacts (VNumber (Finite x)) p ->
  clamp_and_round p = Spec.score p /\
  exists r : AuditResult.t,
    audit artifacts = Fulfilled r /\
    AuditResult.value r = Spec.score p /\
    AuditResult.rawValue r = Some (Spec.rawValue (Finite x)) /\
    AuditResult.debugString r = VUndefined.
Proof.
  intros M. split; [apply clamp_and_round_spec|].
  exists (scored (VNumber (Finite x)) p).
  split; [exact (audit_measures M)|].
  split; [apply clamp_and_round_spec | split; reflexivity].
Qed.

(** C7: a measurement of exactly 0 gets score 100 and raw value 0.  The
    log-normal CDF is 0 at 0, so the complementary percentile of every
    model is 1 there; and on a measurement 0 for which the scorer answers
    1, the audit returns score 100 (the upper bound of the clamp) and raw
    value 0. *)
Theorem zero_measurement_scores_100 (artifacts : Artifacts) (x p : Q) :
  measures artifacts (VNumber (Finite x)) (Finite p) ->
  x == 0 -> p == 1 ->
  (forall model : DistributionScorer.Model,
      DistributionScorer.cdf model 0 = 0%R /\
      DistributionScorer.complementaryPercentile model 0 = 1%R) /\
  exists r : AuditResult.t,
    audit artifacts = Fulfilled r /\
    AuditResult.value r = Num.of_Z 100 /\
    AuditResult.rawValue r = Some (Num.of_Z 0).
Proof.
  intros M X P. split; [apply DistributionScorer.at_zero|].
  exists (scored (VNumber (Finite x)) (Finite p)).
  split; [exact (audit_measures M) | split].
  - cbn [scored Audit.generateAuditResult AuditResult.value].
    rewrite clamp_and_round_finite. f_equal.
    assert (C : clamped (100 * p) == 100).
    { unfold clamped.
      assert (A : Qle_bool 100 (100 * p) = true).
      { apply Qle_bool_iff. rewrite P. discriminate. }
      rewrite A. reflexivity. }
    rewrite C. reflexivity.
  - cbn [scored Audit.generateAuditResult AuditResult.rawValue ToNumber
         Math.round].
    do 2 f_equal. rewrite X. reflexivity.
Qed.

(** C9: the clamp keeps the score in range whatever the scorer computes.
    For every finite [p] it answers, inside [0,1] or not, the score
    returned is an integer between 0 and 100. *)
Theorem score_in_range_for_any_percentile (artifacts : Artifacts)
    (x : JsValue) (p : Q) :
  measures artifacts x (Finite p) ->
  exists (r : AuditResult.t) (n : Z),
    audit artifacts = Fulfilled r /\
    AuditResult.value r = Num.of_Z n /\
    (0 <= n <= 100)%Z.
Proof.
  intros M. destruct (clamp_and_round_in_range p) as (n & E & R).
  exists (scored x (Finite p)), n.
  split; [exact (audit_measures M) | split; [exact E | exact R]].
Qed.

End Scoring.

(** ** Monotonicity *)

Lemma clamped_monotone (s1 s2 : Q) : s1 <= s2 -> clamped s1 <= clamped s2.
Proof.
  intros L. unfold clamped.
  destruct (Qle_bool 100 s1) eqn:A1; destruct (Qle_bool 100 s2) eqn:A2;
    destruct (Qle_bool s1 0) eqn:B1; destruct (Qle_bool s2 0) eqn:B2;
    repeat match goal with
      | H : Qle_bool _ _ = true |- _ => apply Qle_bool_iff in H
      | H : Qle_bool ?a ?b = false |- _ =>
          assert (~ a <= b) by (rewrite <- Qle_bool_iff; congruence);
          clear H
      end;
    lra.
Qed.

Lemma clamp_and_round_monotone (p1 p2 : Q) :
  p2 <= p1 ->
  exists n1 n2 : Z,
    clamp_and_round (Finite p1) = Num.of_Z n1 /\
    clamp_and_round (Finite p2) = Num.of_Z n2 /\
    (n2 <= n1)%Z.
Proof.
  intros L. rewrite !clamp_and_round_finite.
  eexists _, _. split; [reflexivity | split; [reflexivity|]].
  apply Qfloor_resp_le. apply Qplus_le_l. apply clamped_monotone. lra.
Qed.

(** C6: the complementary percentile is antitone, and so is the score.
    For the model built from any valid calibration (a point of diminishing
    returns below the median, both positive) and measurements
    0 <= x1 < x2, the complementary percentile at [x2] is at most the one
    at [x1]; and when the scorer answers no more for one run than for
    another, the audit gives that run no higher a score. *)
Theorem slower_never_scores_higher :
  (forall reference_quantile median pdr x1 x2 : R,
      (reference_quantile < 0)%R ->
      (0 < pdr < median)%R ->
      (0 <= x1 < x2)%R ->
      let model :=
        DistributionScorer.buildLogNormalModel reference_quantile median pdr
      in
      (DistributionScorer.complementaryPercentile model x2
       <= DistributionScorer.complementaryPercentile model x1)%R)
  /\
  (forall (I : Imports) (slow fast : Artifacts) (x2 x1 : JsValue)
          (p2 p1 : Q),
      measures fast x1 (Finite p1) ->
      measures slow x2 (Finite p2) ->
      p2 <= p1 ->
      exists (r1 r2 : AuditResult.t) (n1 n2 : Z),
        audit fast = Fulfilled r1 /\
        audit slow = Fulfilled r2 /\
        AuditResult.value r1 = Num.of_Z n1 /\
        AuditResult.value r2 = Num.of_Z n2 /\
        (n2 <= n1)%Z).
Proof.
  split.
  - intros reference_quantile median pdr x1 x2 Q C X model.
    apply DistributionScorer.complementaryPercentile_antitone_for_shape.
    + now apply DistributionScorer.shape_positive.
    + exact X.
  - intros I slow fast x2 x1 p2 p1 M1 M2 L.
    destruct (clamp_and_round_monotone L) as (n1 & n2 & E1 & E2 & N).
    exists (scored x1 (Finite p1)), (scored x2 (Finite p2)), n1, n2.
    split; [exact (audit_measures M1)|].
    split; [exact (audit_measures M2)|].
    split; [exact E1 | split; [exact E2 | exact N]].
Qed.

(** ** Metadata *)

(** C8: the metadata handed to the reporting layer is constant: category
    "Performance", name "speed-index-metric", description "Speed Index" and
    optimal value "1,000".  The getters are constants of the class, and every
    result of the audit, a score or a failure, carries these four strings. *)
Theorem metadata_is_constant :
  category = "Performance" /\
  name = "speed-index-metric" /\
  description = "Speed Index" /\
  optimalValue = "1,000" /\
  forall (I : Imports) (artifacts : Artifacts) (r : AuditResult.t),
    audit artifacts = Fulfilled r ->
    AuditResult.category r = "Performance" /\
    AuditResult.name r = "speed-index-metric" /\
    AuditResult.description r = "Speed Index" /\
    AuditResult.optimalValue r = "1,000".
Proof.
  repeat (split; [reflexivity|]).
  intros I artifacts r E.
  destruct (audit_fulfilled_cases _ E)
    as [(x & p & _ & ->) | (o & err & message & _ & _ & ->)];
    repeat split.
Qed.

(** ** Where the code departs from the wording *)

(** C2 fails as worded: when speedline rejects with an error whose message
    is empty, the audit returns score -1 with an empty debug string. *)
Lemma empty_message_breaks_invariant :
  exists r : AuditResult.t,
    audit (I := StandIn.imports (Rejected (mkError ""))) StandIn.some_trace
    = Fulfilled r /\
    AuditResult.value r = Num.of_Z (-1) /\
    AuditResult.debugString r = VString "" /\
    ~ worded_invariant r.
Proof.
  eexists. split; [reflexivity|]. cbn.
  split; [reflexivity | split; [reflexivity|]].
  intros [(n & E & R) | (_ & msg & E & N)].
  - apply of_Z_inj in E. lia.
  - injection E as <-. now apply N.
Qed.

(** C3 fails as worded: nothing but the trace is checked.  A speedline
    result that is absent yields the message of the TypeError raised by the
    read of [speedIndex]; a result whose [speedIndex] is a string, scored by
    a formula that answers NaN on it, yields no failure at all. *)
Lemma unchecked_result_not_reported :
  (exists r : AuditResult.t,
      audit (I := StandIn.imports (Fulfilled VUndefined)) StandIn.some_trace
      = Fulfilled r /\
      AuditResult.debugString r
      = VString "Cannot read property 'speedIndex' of undefined" /\
      AuditResult.debugString r <> VString FAILURE_MESSAGE)
  /\
  (exists r : AuditResult.t,
      audit (I := StandIn.imports
                    (Fulfilled (VObject [("speedIndex", VString "n/a")])))
        StandIn.some_trace
      = Fulfilled r /\
      AuditResult.value r = NaN /\
      AuditResult.rawValue r = Some NaN /\
      AuditResult.debugString r = VUndefined /\
      AuditResult.debugString r <> VString FAILURE_MESSAGE).
Proof.
  split; eexists; (split; [reflexivity|]); cbn; repeat split; discriminate.
Qed.

(** Whatever the collaborators are, the fixed message is reported only
    when the trace guard fired or a collaborator failed with that very
    message: the audit itself never reports a speedline result as not
    found. *)
Lemma not_found_only_from_guard (I : Imports) (artifacts : Artifacts)
    (r : AuditResult.t) :
  audit artifacts = Fulfilled r ->
  AuditResult.debugString r = VString FAILURE_MESSAGE ->
  exists (o : origin) (err : JsValue),
    fails artifacts o err /\
    Get err "message" = Normal (VString FAILURE_MESSAGE) /\
    (o = TraceGuard \/ collaborator o = true).
Proof.
  intros E D.
  destruct (audit_fulfilled_cases _ E)
    as [(x & p & _ & ->) | (o & err & message & F & G & ->)].
  - discriminate D.
  - cbn in D. subst message. exists o, err.
    split; [exact F | split; [exact G|]].
    destruct F as [| | | | trace results distribution err R Gd S Dn X |];
      try (right; reflexivity); try (left; reflexivity).
    exfalso.
    destruct results; try discriminate X; injection X as <-; discriminate G.
Qed.


(** C10 fails as worded: when speedline rejects with a string, which has no
    [message] property, the audit returns score -1 with no raw value and no
    debug string either. *)
Lemma string_reason_leaves_no_debug_string :
  exists r : AuditResult.t,
    audit (I := StandIn.imports (Rejected (VString "trace too short")))
      StandIn.some_trace
    = Fulfilled r /\
    AuditResult.value r = Num.of_Z (-1) /\
    AuditResult.rawValue r = None /\
    AuditResult.debugString r = VUndefined /\
    (forall message : string,
        AuditResult.debugString r <> VString message).
Proof.
  eexists. split; [reflexivity|]. cbn. repeat split. discriminate.
Qed.

(** ** Concrete runs *)

(** Scenario D: no trace at all. *)
Example no_trace :
  audit (I := StandIn.replay) {| traceContents := Plain VUndefined |}
  = Fulfilled (failed (VString FAILURE_MESSAGE)).
Proof. reflexivity. Qed.

(** A trace that is an object, not an array. *)
Example trace_not_an_array :
  audit (I := StandIn.replay)
    {| traceContents := Plain (VObject [("traceEvents", VArray [])]) |}
  = Fulfilled (failed (VString FAILURE_MESSAGE)).
Proof. reflexivity. Qed.

(** The gatherer's promise of a trace is rejected. *)
Example trace_promise_rejected :
  audit (I := StandIn.replay)
    {| traceContents := Thenable (Rejected (mkError "Tracing failed")) |}
  = Fulfilled (failed (VString "Tracing failed")).
Proof. reflexivity. Qed.

(** A trace that never arrives: the audit never settles either. *)
Example trace_never_arrives :
  audit (I := StandIn.replay) {| traceContents := Thenable Pending |}
  = Pending.
Proof. reflexivity. Qed.

(** Scenarios A, E and F with the stand-in scorer. *)
Example scenario_median :
  audit (I := StandIn.replay) (StandIn.recorded 5500)
  = Fulfilled (Audit.generateAuditResult (Num.of_Z 50)
                 (Some (Num.of_Z 5500)) VUndefined "1,000").
Proof. reflexivity. Qed.

Example scenario_zero :
  audit (I := StandIn.replay) (StandIn.recorded 0)
  = Fulfilled (Audit.generateAuditResult (Num.of_Z 100)
                 (Some (Num.of_Z 0)) VUndefined "1,000").
Proof. reflexivity. Qed.

Example scenario_very_slow :
  audit (I := StandIn.replay) (StandIn.recorded 1000000)
  = Fulfilled (Audit.generateAuditResult (Num.of_Z 0)
                 (Some (Num.of_Z 1000000)) VUndefined "1,000").
Proof. reflexivity. Qed.

Example rounding_of_the_raw_value :
  audit (I := StandIn.replay) (StandIn.recorded (54995 # 10))
  = Fulfilled (Audit.generateAuditResult (Num.of_Z 50)
                 (Some (Num.of_Z 5500)) VUndefined "1,000").
Proof. reflexivity. Qed.

(** ** The theorems at concrete runs *)

Lemma missing_trace_not_found_witness :
  let artifacts := {| traceContents := Plain VUndefined |} in
  Promise.resolve (traceContents artifacts) = Fulfilled VUndefined /\
  (ToBoolean VUndefined = false \/ Array_isArray VUndefined = false) /\
  exists r : AuditResult.t,
    audit (I := StandIn.imports Pending) artifacts = Fulfilled r /\
    AuditResult.value r = Num.of_Z (-1) /\
    AuditResult.rawValue r = None /\
    AuditResult.debugString r = VString FAILURE_MESSAGE.
Proof.
  split; [reflexivity | split; [left; reflexivity|]].
  apply (missing_trace_not_found (I := StandIn.imports Pending)
           {| traceContents := Plain VUndefined |} (trace := VUndefined)).
  - reflexivity.
  - left. reflexivity.
Defined.

Lemma measures_stand_in (x : Q) :
  measures (I := StandIn.imports (Fulfilled (StandIn.measurement x)))
    StandIn.some_trace (VNumber (Finite x)) (Finite (StandIn.band x)).
Proof.
  eexists _, _, _. repeat split; reflexivity.
Defined.

Lemma audit_result_invariant_witness :
  let I := StandIn.imports (Fulfilled (StandIn.measurement 5500)) in
  let r := Audit.generateAuditResult (Num.of_Z 50) (Some (Num.of_Z 5500))
             VUndefined optimalValue in
  audit StandIn.some_trace = Fulfilled r /\
  ((exists (x : JsValue) (p : number),
       measures StandIn.some_trace x p /\
       AuditResult.debugString r = VUndefined /\
       (p <> NaN ->
        exists n : Z,
          AuditResult.value r = Num.of_Z n /\ (0 <= n <= 100)%Z) /\
       (forall q : Q,
           x = VNumber (Finite q) -> 0 <= q ->
           exists m : Z,
             AuditResult.rawValue r = Some (Num.of_Z m) /\ (0 <= m)%Z))
   \/
   (exists (o : origin) (err : JsValue),
       fails StandIn.some_trace o err /\
       AuditResult.value r = Num.of_Z (-1) /\
       Get err "message" = Normal (AuditResult.debugString r) /\
       (collaborator o = false ->
        exists message : string,
          AuditResult.debugString r = VString message /\ message <> ""))).
Proof.
  intros I r. split; [reflexivity|].
  apply (audit_result_invariant (I := I) StandIn.some_trace). reflexivity.
Defined.

Lemma success_result_follows_spec_witness :
  let I := StandIn.imports (Fulfilled (StandIn.measurement (54321 # 10))) in
  measures StandIn.some_trace (VNumber (Finite (54321 # 10)))
    (Finite (1 # 2)) /\
  clamp_and_round (Finite (1 # 2)) = Spec.score (Finite (1 # 2)) /\
  exists r : AuditResult.t,
    audit StandIn.some_trace = Fulfilled r /\
    AuditResult.value r = Spec.score (Finite (1 # 2)) /\
    AuditResult.rawValue r = Some (Spec.rawValue (Finite (54321 # 10))) /\
    AuditResult.debugString r = VUndefined.
Proof.
  intros I. split; [exact (measures_stand_in (54321 # 10))|].
  apply (success_result_follows_spec (I := I) (artifacts := StandIn.some_trace)).
  exact (measures_stand_in (54321 # 10)).
Defined.

Lemma zero_measurement_scores_100_witness :
  let I := StandIn.imports (Fulfilled (StandIn.measurement 0)) in
  measures StandIn.some_trace (VNumber (Finite 0)) (Finite 1) /\
  0 == 0 /\ 1 == 1 /\
  (forall model : DistributionScorer.Model,
      DistributionScorer.cdf model 0 = 0%R /\
      DistributionScorer.complementaryPercentile model 0 = 1%R) /\
  exists r : AuditResult.t,
    audit StandIn.some_trace = Fulfilled r /\
    AuditResult.value r = Num.of_Z 100 /\
    AuditResult.rawValue r = Some (Num.of_Z 0).
Proof.
  intros I. split; [exact (measures_stand_in 0)|].
  split; [reflexivity | split; [reflexivity|]].
  apply (zero_measurement_scores_100 (I := I)
           (artifacts := StandIn.some_trace) (x := 0) (p := 1)).
  - exact (measures_stand_in 0).
  - reflexivity.
  - reflexivity.
Defined.

Lemma score_in_range_for_any_percentile_witness :
  let I := StandIn.constant (Finite (7 # 2))
             (Fulfilled (StandIn.measurement 1250)) in
  measures StandIn.some_trace (VNumber (Finite 1250)) (Finite (7 # 2)) /\
  exists (r : AuditResult.t) (n : Z),
    audit StandIn.some_trace = Fulfilled r /\
    AuditResult.value r = Num.of_Z n /\
    (0 <= n <= 100)%Z.
Proof.
  intros I.
  assert (M : measures StandIn.some_trace (VNumber (Finite 1250))
                (Finite (7 # 2))).
  { eexists _, _, _. repeat split; reflexivity. }
  split; [exact M|].
  exact (score_in_range_for_any_percentile (I := I) M).
Defined.

Lemma measures_replay (x : Q) :
  measures (I := StandIn.replay) (StandIn.recorded x)
    (VNumber (Finite x)) (Finite (StandIn.band x)).
Proof.
  eexists _, _, _. repeat split; reflexivity.
Defined.

Lemma slower_never_scores_higher_witness :
  (let model := DistributionScorer.buildLogNormalModel (-1) 5500 1250 in
   DistributionScorer.complementaryPercentile model 8820
   <= DistributionScorer.complementaryPercentile model 2240)%R
  /\
  (exists (r1 r2 : AuditResult.t) (n1 n2 : Z),
     audit (I := StandIn.replay) (StandIn.recorded 2240) = Fulfilled r1 /\
     audit (I := StandIn.replay) (StandIn.recorded 8820) = Fulfilled r2 /\
     AuditResult.value r1 = Num.of_Z n1 /\
     AuditResult.value r2 = Num.of_Z n2 /\
     (n2 <= n1)%Z).
Proof.
  split.
  - apply (proj1 slower_never_scores_higher
             (-1)%R 5500%R 1250%R 2240%R 8820%R); lra.
  - apply (proj2 slower_never_scores_higher StandIn.replay
             (StandIn.recorded 8820) (StandIn.recorded 2240)
             (VNumber (Finite 8820)) (VNumber (Finite 2240))
             (1 # 4) (9 # 10)).
    + exact (measures_replay 2240).
    + exact (measures_replay 8820).
    + discriminate.
Defined.

Lemma fails_stand_in (err : JsValue) :
  fails (I := StandIn.imports (Rejected err)) StandIn.some_trace
    Speedline err.
Proof.
  eapply fails_speedline; reflexivity.
Defined.


Lemma failure_carries_no_raw_value_witness :
  let I := StandIn.imports (Rejected (mkError "ENOENT: no screenshots")) in
  let r := failed (VString "ENOENT: no screenshots") in
  fails StandIn.some_trace Speedline (mkError "ENOENT: no screenshots") /\
  audit StandIn.some_trace = Fulfilled r /\
  (exists r' : AuditResult.t,
      audit StandIn.some_trace = Fulfilled r' /\
      AuditResult.value r' = Num.of_Z (-1) /\
      AuditResult.debugString r' = VString "ENOENT: no screenshots" /\
      AuditResult.rawValue r' = None) /\
  AuditResult.rawValue r = None /\
  exists (o : origin) (err : JsValue),
    fails StandIn.some_trace o err /\
    Get err "message" = Normal (AuditResult.debugString r).
Proof.
  intros I r. split; [apply fails_stand_in | split; [reflexivity|]].
  pose proof (failure_carries_no_raw_value (I := I) StandIn.some_trace)
    as (_ & B & C).
  split.
  - apply (B Speedline). apply fails_stand_in.
  - apply (C r); reflexivity.
Defined.

Lemma metadata_is_constant_witness :
  let I := StandIn.imports (Fulfilled (StandIn.measurement 17400)) in
  let r := Audit.generateAuditResult (Num.of_Z 5) (Some (Num.of_Z 17400))
             VUndefined optimalValue in
  audit StandIn.some_trace = Fulfilled r /\
  AuditResult.category r = "Performance" /\
  AuditResult.name r = "speed-index-metric" /\
  AuditResult.description r = "Speed Index" /\
  AuditResult.optimalValue r = "1,000".
Proof.
  intros I r. split; [reflexivity|].
  apply (proj2 (proj2 (proj2 (proj2 metadata_is_constant))) I
           StandIn.some_trace r).
  reflexivity.
Defined.

(** * Further properties of the audit *)

(** ** What reaches the collaborators *)


Lemma array_passes_guard (elements : list JsValue) :
  passes_guard (VArray elements) = true.
Proof. reflexivity. Qed.

Lemma passes_guard_array (trace : JsValue) :
  passes_guard trace = true -> exists elements, trace = VArray elements.
Proof.
  unfold passes_guard.
  destruct trace; cbn [Array_isArray]; rewrite ?andb_false_r; intros G;
    try discriminate G.
  eexists. reflexivity.
Qed.

(** X2: the audit consults speedline on arrays only and builds no distribution
    but the one of its calibration (5500, 1250): two sets of collaborators
    that agree there, and on the conversion to Number, give the same
    outcome on every input. *)
Theorem audit_uses_collaborators_narrowly (I1 I2 : Imports)
    (artifacts : Artifacts) :
  (forall elements : list JsValue,
      speedline (Imports := I1) (VArray elements)
      = speedline (Imports := I2) (VArray elements)) ->
  getLogNormalDistribution (Imports := I1) SCORING_MEDIAN
    SCORING_POINT_OF_DIMINISHING_RETURNS
  = getLogNormalDistribution (Imports := I2) SCORING_MEDIAN
      SCORING_POINT_OF_DIMINISHING_RETURNS ->
  (forall v : JsValue,
      StringToNumber (Imports := I1) v = StringToNumber (Imports := I2) v) ->
  audit (I := I1) artifacts = audit (I := I2) artifacts.
Proof.
  intros S D N. unfold audit, attempt.
  destruct (Promise.resolve (traceContents artifacts)) as [trace | err |];
    [| reflexivity | reflexivity].
  cbn [Promise.then_]. rewrite !on_trace_guard.
  destruct (passes_guard trace) eqn:G; [| reflexivity].
  destruct (passes_guard_array _ G) as (elements & ->).
  rewrite <- S.
  destruct (speedline (Imports := I1) (VArray elements))
    as [results | err |]; [| reflexivity | reflexivity].
  cbn [Promise.then_]. unfold on_results. rewrite <- D.
  destruct (getLogNormalDistribution (Imports := I1) SCORING_MEDIAN
              SCORING_POINT_OF_DIMINISHING_RETURNS)
    as [distribution | err]; [| reflexivity].
  cbn [bind]. destruct (Get results "speedIndex") as [x | err];
    [| reflexivity].
  cbn [bind].
  destruct (computeComplementaryPercentile distribution x) as [p | err];
    [| reflexivity].
  cbn [bind]. destruct x; cbn [ToNumber]; try rewrite N; reflexivity.
Qed.

Lemma audit_uses_collaborators_narrowly_witness :
  (forall elements : list JsValue,
      speedline (Imports := StandIn.replay) (VArray elements)
      = speedline (Imports := narrow_replay) (VArray elements)) /\
  getLogNormalDistribution (Imports := StandIn.replay) SCORING_MEDIAN
    SCORING_POINT_OF_DIMINISHING_RETURNS
  = getLogNormalDistribution (Imports := narrow_replay) SCORING_MEDIAN
      SCORING_POINT_OF_DIMINISHING_RETURNS /\
  speedline (Imports := StandIn.replay) VNull
  <> speedline (Imports := narrow_replay) VNull /\
  audit (I := StandIn.replay) (StandIn.recorded 3430)
  = audit (I := narrow_replay) (StandIn.recorded 3430).
Proof.
  assert (S : forall elements : list JsValue,
             speedline (Imports := StandIn.replay) (VArray elements)
             = speedline (Imports := narrow_replay) (VArray elements)).
  { intros [| [| | | [| |] | | |] rest]; reflexivity. }
  split; [exact S | split; [reflexivity | split; [discriminate|]]].
  apply (audit_uses_collaborators_narrowly StandIn.replay narrow_replay
           (StandIn.recorded 3430) S).
  - reflexivity.
  - intros v. reflexivity.
Defined.

(** ** The artifacts object *)

(** X3: an artifacts object without a [traceContents] property, the empty
    object included, is reported as trace not found. *)
Theorem missing_traceContents_not_found (I : Imports)
    (artifacts : Gathered) :
  gathered "traceContents" artifacts = None ->
  audit (read_artifacts artifacts)
  = Fulfilled (failed (VString FAILURE_MESSAGE)).
Proof.
  intros G. unfold audit, attempt, read_artifacts. cbn [traceContents].
  rewrite G. reflexivity.
Qed.

Lemma missing_traceContents_not_found_witness :
  let artifacts : Gathered :=
    [("url", Plain (VString "https://example.com"));
     ("html", Thenable Pending)] in
  gathered "traceContents" artifacts = None /\
  gathered "traceContents" [] = None /\
  audit (I := StandIn.replay) (read_artifacts artifacts)
  = Fulfilled (failed (VString FAILURE_MESSAGE)) /\
  audit (I := StandIn.replay) (read_artifacts [])
  = Fulfilled (failed (VString FAILURE_MESSAGE)).
Proof.
  intros artifacts.
  split; [reflexivity | split; [reflexivity | split]].
  - apply (missing_traceContents_not_found StandIn.replay artifacts).
    reflexivity.
  - apply (missing_traceContents_not_found StandIn.replay []). reflexivity.
Defined.

(** ** Settling *)

(** X5: the audit stays pending exactly when the trace never arrives or
    speedline never settles on it; in every other case it settles. *)
Theorem audit_pending_iff (I : Imports) (artifacts : Artifacts) :
  audit artifacts = Pending <->
  Promise.resolve (traceContents artifacts) = Pending \/
  exists elements : list JsValue,
    Promise.resolve (traceContents artifacts) = Fulfilled (VArray elements)
    /\ speedline (VArray elements) = Pending.
Proof.
  assert (settles : forall o err, fails artifacts o err ->
                      audit artifacts <> Pending).
  { intros o err F. rewrite (audit_fails F). unfold on_error.
    destruct (Get err "message"); discriminate. }
  split.
  - intros E.
    destruct (Promise.resolve (traceContents artifacts))
      as [trace | err |] eqn:R.
    + destruct (passes_guard trace) eqn:G.
      * destruct (passes_guard_array _ G) as (elements & ->).
        right. exists elements. split; [reflexivity|].
        destruct (speedline (VArray elements)) as [results | err |] eqn:S;
          [exfalso | exfalso | reflexivity].
        -- destruct the_distribution as [distribution | err] eqn:D.
           ++ destruct (Get results "speedIndex") as [x | err] eqn:X.
              ** destruct (computeComplementaryPercentile distribution x)
                   as [p | err] eqn:P.
                 --- assert (M : measures artifacts x p).
                     { exists (VArray elements), results, distribution.
                       auto 7. }
                     rewrite (audit_measures M) in E. discriminate E.
                 --- apply (settles Scorer err); [| exact E].
                     eapply fails_scorer; eauto.
              ** apply (settles PropertyRead err); [| exact E].
                 eapply fails_read; eauto.
           ++ apply (settles Scorer err); [| exact E].
              eapply fails_distribution; eauto.
        -- apply (settles Speedline err); [| exact E].
           eapply fails_speedline; eauto.
      * exfalso. apply (settles TraceGuard (mkError FAILURE_MESSAGE));
          [| exact E].
        eapply fails_guard; eauto.
    + exfalso. apply (settles TraceProvider err); [| exact E].
      now apply fails_provider.
    + left. reflexivity.
  - intros [R | (elements & R & S)]; unfold audit, attempt; rewrite R.
    + reflexivity.
    + cbn [Promise.then_]. rewrite on_trace_guard, array_passes_guard, S.
      reflexivity.
Qed.

Lemma audit_pending_iff_witness :
  let I := StandIn.imports Pending in
  audit StandIn.some_trace = Pending /\
  audit (I := StandIn.replay) StandIn.some_trace <> Pending.
Proof.
  intros I. split.
  - apply (proj2 (audit_pending_iff I StandIn.some_trace)).
    right. eexists. split; reflexivity.
  - intros E.
    destruct (proj1 (audit_pending_iff StandIn.replay StandIn.some_trace) E)
      as [R | (elements & R & S)].
    + discriminate R.
    + injection R as <-. discriminate S.
Defined.

(** ** How the score follows the scorer's answer *)

Lemma clamp_and_round_of_product (p : number) :
  clamp_and_round p = score_of_product (Num.mul (Num.of_Z 100) p).
Proof. reflexivity. Qed.

Lemma score_of_finite_product (s : Q) :
  score_of_product (Finite s) = Num.of_Z (Qfloor (clamped s + (1 # 2))).
Proof.
  unfold score_of_product, clamped, Math.min, Math.max, Math.round.
  change (Num.of_Z 100) with (Finite 100).
  change (Num.of_Z 0) with (Finite 0).
  cbn [Num.ltb].
  destruct (Qle_bool 100 s); cbn [negb].
  - reflexivity.
  - cbn [Num.ltb]. destruct (Qle_bool s 0); reflexivity.
Qed.

(** Clamping to [0,100] moves a product no further from a point of
    [0,100]. *)
Lemma clamped_near (s t d : Q) :
  0 <= t <= 100 -> - d <= s - t <= d -> - d <= clamped s - t <= d.
Proof.
  intros [T0 T100] [L U]. unfold clamped.
  destruct (Qle_bool 100 s) eqn:A.
  - apply Qle_bool_iff in A. lra.
  - destruct (Qle_bool s 0) eqn:B.
    + apply Qle_bool_iff in B. lra.
    + lra.
Qed.

(** X6: for an answer [p] of the scorer between 0 and 1 the score is less
    than one point away from [100 * p].  This does not hinge on the product
    being exact: it holds of the clamped and rounded value of any product
    within a quarter of [100 * p], as the nearest double is. *)
Theorem score_within_a_point (I : Imports) (artifacts : Artifacts)
    (x : JsValue) (p : Q) :
  measures artifacts x (Finite p) ->
  0 <= p -> p <= 1 ->
  (exists (r : AuditResult.t) (n : Z),
      audit artifacts = Fulfilled r /\
      AuditResult.value r = Num.of_Z n /\
      inject_Z n - 1 < 100 * p /\
      100 * p < inject_Z n + 1) /\
  (forall product : Q,
      - (1 # 4) <= product - 100 * p <= 1 # 4 ->
      exists n : Z,
        score_of_product (Finite product) = Num.of_Z n /\
        inject_Z n - 1 < 100 * p /\
        100 * p < inject_Z n + 1).
Proof.
  intros M P0 P1.
  assert (G : forall product : Q,
             - (1 # 4) <= product - 100 * p <= 1 # 4 ->
             exists n : Z,
               score_of_product (Finite product) = Num.of_Z n /\
               inject_Z n - 1 < 100 * p /\
               100 * p < inject_Z n + 1).
  { intros s D. exists (Qfloor (clamped s + (1 # 2))).
    split; [apply score_of_finite_product|].
    assert (T : 0 <= 100 * p <= 100) by lra.
    pose proof (clamped_near T D) as C.
    pose proof (Qfloor_le (clamped s + (1 # 2))) as L.
    pose proof (Qlt_floor (clamped s + (1 # 2))) as U.
    rewrite inject_Z_plus in U. change (inject_Z 1) with 1 in U.
    revert C L U.
    generalize (inject_Z (Qfloor (clamped s + (1 # 2)))).
    generalize (clamped s). intros c a C L U. lra. }
  split; [| exact G].
  destruct (G (100 * p)) as (n & E & B); [lra|].
  exists (scored x (Finite p)), n.
  split; [exact (audit_measures M) | split; [exact E | exact B]].
Qed.

Lemma score_within_a_point_witness :
  let I := StandIn.constant (Finite (15 # 1000))
             (Fulfilled (StandIn.measurement 30000)) in
  measures StandIn.some_trace (VNumber (Finite 30000))
    (Finite (15 # 1000)) /\
  0 <= 15 # 1000 /\ 15 # 1000 <= 1 /\
  (exists (r : AuditResult.t) (n : Z),
      audit StandIn.some_trace = Fulfilled r /\
      AuditResult.value r = Num.of_Z n /\
      inject_Z n - 1 < 100 * (15 # 1000) /\
      100 * (15 # 1000) < inject_Z n + 1) /\
  (exists n : Z,
      score_of_product (Finite (3 # 2)) = Num.of_Z n /\
      inject_Z n - 1 < 100 * (15 # 1000) /\
      100 * (15 # 1000) < inject_Z n + 1).
Proof.
  intros I.
  assert (M : measures StandIn.some_trace (VNumber (Finite 30000))
                (Finite (15 # 1000))).
  { eexists _, _, _. repeat split; reflexivity. }
  split; [exact M | split; [discriminate | split; [discriminate|]]].
  assert (P0 : 0 <= 15 # 1000) by discriminate.
  assert (P1 : 15 # 1000 <= 1) by discriminate.
  destruct (score_within_a_point (I := I) M P0 P1) as [A B].
  split; [exact A|].
  apply (B (3 # 2)). split; discriminate.
Defined.

(** X7: answers of the scorer outside [0,1] saturate: an answer of at least
    1 scores 100 and an answer of at most 0 scores 0.  Nor does this hinge
    on the product being exact: any product of at least 100 scores 100 and
    any product of at most 0 scores 0. *)
Theorem score_saturates (I : Imports) (artifacts : Artifacts)
    (x : JsValue) (p : Q) :
  measures artifacts x (Finite p) ->
  (exists (r : AuditResult.t) (n : Z),
      audit artifacts = Fulfilled r /\
      AuditResult.value r = Num.of_Z n /\
      (1 <= p -> n = 100%Z) /\
      (p <= 0 -> n = 0%Z)) /\
  (forall product : Q,
      (100 <= product ->
       score_of_product (Finite product) = Num.of_Z 100) /\
      (product <= 0 ->
       score_of_product (Finite product) = Num.of_Z 0)).
Proof.
  intros M.
  assert (G : forall product : Q,
             (100 <= product ->
              score_of_product (Finite product) = Num.of_Z 100) /\
             (product <= 0 ->
              score_of_product (Finite product) = Num.of_Z 0)).
  { intros s. rewrite score_of_finite_product. unfold clamped. split.
    - intros H. apply Qle_bool_iff in H. rewrite H. reflexivity.
    - intros H. destruct (Qle_bool 100 s) eqn:A.
      + apply Qle_bool_iff in A. lra.
      + apply Qle_bool_iff in H. rewrite H. reflexivity. }
  split; [| exact G].
  exists (scored x (Finite p)), (Qfloor (clamped (100 * p) + (1 # 2))).
  split; [exact (audit_measures M)|].
  split; [apply clamp_and_round_finite|].
  destruct (G (100 * p)) as [G100 G0].
  rewrite score_of_finite_product in G100, G0.
  split; intros H.
  - apply of_Z_inj. apply G100. lra.
  - apply of_Z_inj. apply G0. lra.
Qed.

Lemma score_saturates_witness :
  let I := StandIn.constant (Finite (-3)) (Fulfilled (StandIn.measurement 1))
  in
  measures StandIn.some_trace (VNumber (Finite 1)) (Finite (-3)) /\
  -3 <= 0 /\
  exists (r : AuditResult.t) (n : Z),
    audit StandIn.some_trace = Fulfilled r /\
    AuditResult.value r = Num.of_Z n /\
    (1 <= -3 -> n = 100%Z) /\
    (-3 <= 0 -> n = 0%Z).
Proof.
  intros I.
  assert (M : measures StandIn.some_trace (VNumber (Finite 1))
                (Finite (-3))).
  { eexists _, _, _. repeat split; reflexivity. }
  split; [exact M | split; [discriminate|]].
  exact (proj1 (score_saturates (I := I) M)).
Defined.

(** X8: an answer of the scorer that is no finite Number is not recovered as a
    failure: NaN goes through the clamp and the rounding and is returned as
    the score, +Infinity scores 100 and -Infinity scores 0, each with the
    shape of a success. *)
Theorem non_finite_answer_not_recovered (I : Imports)
    (artifacts : Artifacts) (x : JsValue) (p : number) :
  measures artifacts x p ->
  (forall q : Q, p <> Finite q) ->
  exists r : AuditResult.t,
    audit artifacts = Fulfilled r /\
    AuditResult.value r
    = match p with
      | Infinity false => Num.of_Z 100
      | Infinity true => Num.of_Z 0
      | _ => NaN
      end /\
    AuditResult.rawValue r <> None /\
    AuditResult.debugString r = VUndefined.
Proof.
  intros M N. exists (scored x p).
  split; [exact (audit_measures M)|].
  split; [| split; [discriminate | reflexivity]].
  destruct p as [| [|] | q]; try reflexivity.
  exfalso. exact (N q eq_refl).
Qed.

Lemma non_finite_answer_not_recovered_witness :
  let J := StandIn.imports (Fulfilled (VObject [("speedIndex", VNumber NaN)]))
  in
  measures (I := J) StandIn.some_trace (VNumber NaN) NaN /\
  (forall q : Q, NaN <> Finite q) /\
  exists r : AuditResult.t,
    audit (I := J) StandIn.some_trace = Fulfilled r /\
    AuditResult.value r = NaN /\
    AuditResult.rawValue r <> None /\
    AuditResult.debugString r = VUndefined.
Proof.
  intros J.
  assert (M : measures (I := J) StandIn.some_trace (VNumber NaN) NaN).
  { eexists _, _, _. repeat split; reflexivity. }
  split; [exact M | split; [discriminate|]].
  apply (non_finite_answer_not_recovered (I := J) M). discriminate.
Defined.

(** ** The raw value *)

(** X9: the raw value of a finite measurement is the nearest integer, a tie
    going up, for negative measurements as well; an integral measurement is
    returned unchanged. *)
Theorem raw_value_is_nearest_integer (I : Imports) (artifacts : Artifacts)
    (x : Q) (p : number) :
  measures artifacts (VNumber (Finite x)) p ->
  exists (r : AuditResult.t) (m : Z),
    audit artifacts = Fulfilled r /\
    AuditResult.rawValue r = Some (Num.of_Z m) /\
    inject_Z m - (1 # 2) <= x /\
    x < inject_Z m + (1 # 2) /\
    (forall k : Z, x == inject_Z k -> m = k).
Proof.
  intros M.
  exists (scored (VNumber (Finite x)) p), (Qfloor (x + (1 # 2))).
  split; [exact (audit_measures M) | split; [reflexivity|]].
  pose proof (Qfloor_le (x + (1 # 2))) as L.
  pose proof (Qlt_floor (x + (1 # 2))) as U.
  rewrite inject_Z_plus in U. change (inject_Z 1) with 1 in U.
  split; [| split].
  - revert L. generalize (inject_Z (Qfloor (x + (1 # 2)))). intros a L. lra.
  - revert U. generalize (inject_Z (Qfloor (x + (1 # 2)))). intros a U. lra.
  - intros k E. rewrite E. apply round_half.
Qed.

Lemma raw_value_is_nearest_integer_witness :
  let I := StandIn.imports (Fulfilled (StandIn.measurement (-5 # 2))) in
  measures StandIn.some_trace (VNumber (Finite (-5 # 2))) (Finite 1) /\
  exists (r : AuditResult.t) (m : Z),
    audit StandIn.some_trace = Fulfilled r /\
    AuditResult.rawValue r = Some (Num.of_Z m) /\
    inject_Z m - (1 # 2) <= -5 # 2 /\
    -5 # 2 < inject_Z m + (1 # 2) /\
    (forall k : Z, -5 # 2 == inject_Z k -> m = k).
Proof.
  intros I. split; [exact (measures_stand_in (-5 # 2))|].
  exact (raw_value_is_nearest_integer (I := I)
           (measures_stand_in (-5 # 2))).
Defined.

(** X10: a speedline result without a [speedIndex] property is not treated as a
    failure: the scorer is asked about [undefined], and when it answers,
    the audit returns that score together with the raw value NaN. *)
Theorem missing_speedIndex_scored_as_undefined (I : Imports)
    (artifacts : Artifacts) (elements : list JsValue)
    (properties : list (string * JsValue)) (distribution : Distribution)
    (p : number) :
  Promise.resolve (traceContents artifacts) = Fulfilled (VArray elements) ->
  speedline (VArray elements) = Fulfilled (VObject properties) ->
  lookup "speedIndex" properties = None ->
  getLogNormalDistribution SCORING_MEDIAN
    SCORING_POINT_OF_DIMINISHING_RETURNS = Normal distribution ->
  computeComplementaryPercentile distribution VUndefined = Normal p ->
  exists r : AuditResult.t,
    audit artifacts = Fulfilled r /\
    AuditResult.value r = clamp_and_round p /\
    AuditResult.rawValue r = Some NaN /\
    AuditResult.debugString r = VUndefined.
Proof.
  intros R S L D P. exists (scored VUndefined p).
  split; [| repeat split].
  apply audit_measures.
  exists (VArray elements), (VObject properties), distribution.
  repeat split; try assumption.
  cbn [Get]. rewrite L. reflexivity.
Qed.

Lemma missing_speedIndex_scored_as_undefined_witness :
  let I := StandIn.constant (Finite (3 # 4))
             (Fulfilled (VObject [("frames", VArray []);
                                  ("perceptualSpeedIndex",
                                   VNumber (Finite 4000))])) in
  lookup "speedIndex"
    [("frames", VArray []);
     ("perceptualSpeedIndex", VNumber (Finite 4000))] = None /\
  exists r : AuditResult.t,
    audit StandIn.some_trace = Fulfilled r /\
    AuditResult.value r = clamp_and_round (Finite (3 # 4)) /\
    AuditResult.rawValue r = Some NaN /\
    AuditResult.debugString r = VUndefined.
Proof.
  intros I. split; [reflexivity|].
  eapply (missing_speedIndex_scored_as_undefined I StandIn.some_trace);
    reflexivity.
Defined.

(** ** The shape of a result *)

(** X11: the raw value is absent exactly when the score is -1, and no
    result holds both a raw value and a debug string: a score comes with
    its raw value and no debug string, a recovered failure with no raw
    value. *)
Theorem raw_value_absent_iff_failure_score (I : Imports)
    (artifacts : Artifacts) (r : AuditResult.t) :
  audit artifacts = Fulfilled r ->
  (AuditResult.value r = Num.of_Z (-1) <-> AuditResult.rawValue r = None) /\
  (AuditResult.rawValue r <> None ->
   AuditResult.debugString r = VUndefined).
Proof.
  intros E.
  destruct (audit_fulfilled_cases _ E)
    as [(x & p & _ & ->) | (o & err & message & _ & _ & ->)].
  - pose proof (clamp_and_round_not_sentinel p) as N.
    cbn [scored Audit.generateAuditResult AuditResult.value
         AuditResult.rawValue AuditResult.debugString].
    split; [split; intros H; [contradiction | discriminate H]
           | reflexivity].
  - cbn [failed Audit.generateAuditResult AuditResult.value
         AuditResult.rawValue AuditResult.debugString].
    split; [split; reflexivity | intros H; now contradiction H].
Qed.

Lemma raw_value_absent_iff_failure_score_witness :
  let I := StandIn.imports (Rejected (VNumber (Finite 404))) in
  let r := failed VUndefined in
  audit StandIn.some_trace = Fulfilled r /\
  (AuditResult.value r = Num.of_Z (-1) <-> AuditResult.rawValue r = None) /\
  (AuditResult.rawValue r <> None ->
   AuditResult.debugString r = VUndefined).
Proof.
  intros I r. split; [reflexivity|].
  apply (raw_value_absent_iff_failure_score I StandIn.some_trace).
  reflexivity.
Defined.

